(** * AdTech analytics: the expiring cache and the statistics queries

    A shallow embedding of [cache.py], of the queries of [database.py], of
    the frame operations of [data_processing.py], of the filters of
    [dashboard.py] and of the [/data/stats] handler of [main.py].

    Conventions of the embedding.
    - A Python [dict] keyed by strings is a [gmap string _].  The order in
      which a [dict] lists its keys is not modelled: key lists are compared
      by membership.
    - [time.time()] is an explicit argument of every operation that reads
      the clock.  Clock readings and time-to-live values are whole numbers
      of clock ticks (seconds); fractions of a tick and the rounding of
      floating-point addition are not modelled.
    - Rates are exact rationals ([Q]); [round(x, 2)] rounds the exact value
      half-to-even.  The results of pandas divisions carry the IEEE specials
      explicitly ([fnum]).
    - Dates are carried in ISO-8601 text form, whose lexicographic order is
      the calendar order.  The queries of [Database] take their date bounds
      in that form; how the database reads a date from the text of a
      request parameter, and that it may reject the text, is a parameter
      of [Service].
    - A database table is the list of its rows in scan order; a query
      without [ORDER BY] returns the matching rows in that order.  Failures
      of the database connection are not modelled. *)

From Stdlib Require Import ZArith QArith Qround.
From stdpp Require Import gmap strings list sorting fin_maps.

Close Scope Q_scope.
Local Open Scope Z_scope.

(** ** cache.py *)

Module CacheManager.

Record Entry (V : Type) := mkEntry { value : V; expires_at : Z }.
Arguments mkEntry {V} _ _.
Arguments value {V} _.
Arguments expires_at {V} _.

(** The two attributes set by [__init__]. *)
Record t (V : Type) := mk { _cache : gmap string (Entry V); default_ttl : Z }.
Arguments mk {V} _ _.
Arguments _cache {V} _.
Arguments default_ttl {V} _.

Section Ops.
Context {V : Type}.

Definition init (default_ttl : Z) : t V := mk ∅ default_ttl.

Definition with_cache (self : t V) (m : gmap string (Entry V)) : t V :=
  mk m (default_ttl self).

(** [get]: the result [None] is Python's [None], [Some v] the stored
    ['value']. *)
Definition get (now : Z) (key : string) (self : t V) : option V * t V :=
  match _cache self !! key with
  | None => (None, self)
  | Some entry =>
      if now >? expires_at entry
      then (None, with_cache self (base.delete key (_cache self)))
      else (Some (value entry), self)
  end.

Definition set (now : Z) (key : string) (v : V) (ttl : option Z)
    (self : t V) : t V :=
  let ttl := match ttl with None => default_ttl self | Some n => n end in
  let expires_at := now + ttl in
  with_cache self (<[key := mkEntry v expires_at]> (_cache self)).

Definition delete (key : string) (self : t V) : bool * t V :=
  match _cache self !! key with
  | Some _ => (true, with_cache self (base.delete key (_cache self)))
  | None => (false, self)
  end.

Definition clear (self : t V) : t V := with_cache self ∅.

(** The keys collected by the comprehension of [cleanup_expired]. *)
Definition expired_keys (current_time : Z) (self : t V) : list string :=
  (filter (λ kv : string * Entry V, (current_time >? expires_at kv.2) = true)
          (map_to_list (_cache self))).*1.

Definition cleanup_expired (now : Z) (self : t V) : nat * t V :=
  let current_time := now in
  let ks := expired_keys current_time self in
  (length ks,
   with_cache self (foldl (λ m key, base.delete key m) (_cache self) ks)).

Record Stats := mkStats { total_entries : nat; cache_keys : list string }.

Definition get_stats (now : Z) (self : t V) : Stats * t V :=
  let self' := (cleanup_expired now self).2 in
  (mkStats (size (_cache self')) (map_to_list (_cache self')).*1, self').

(** An entry is live at [now] when its expiry time has not passed. *)
Definition live (now : Z) (e : Entry V) : Prop := now ≤ expires_at e.

#[global] Instance live_dec now e : Decision (live now e).
Proof. unfold live. apply _. Defined.

End Ops.
End CacheManager.

(** ** Numbers *)

(** Python's [sum]: a left fold from [0]. *)
Definition sum (l : list Z) : Z := foldl Z.add 0 l.

Definition Qsum (l : list Q) : Q := foldl Qplus (0 # 1)%Q l.

(** The mean of a column ([AVG] in SQL, ['mean'] in pandas). *)
Definition mean (l : list Q) : Q :=
  Qred (Qsum l / inject_Z (Z.of_nat (length l)))%Q.

Definition round_half_even (q : Q) : Z :=
  let f := Qfloor q in
  match Qcompare (q - inject_Z f)%Q (1 # 2)%Q with
  | Lt => f
  | Gt => f + 1
  | Eq => if Z.even f then f else f + 1
  end.

(** [round(x, 2)] on the exact value; the code rounds the nearest float,
    which can fall on the other side of a tie of the exact value. *)
Definition round2 (q : Q) : Q :=
  Qred (inject_Z (round_half_even (q * inject_Z 100)%Q) / inject_Z 100)%Q.

(** True division of integers followed by [* 100], as [get_stats] and the
    dashboard write it under their [total_clicks > 0] guard. *)
Definition rate (conversions clicks : Z) : Q :=
  (inject_Z conversions / inject_Z clicks * inject_Z 100)%Q.

(** A float64 cell of a pandas column. *)
Inductive fnum := Fin (q : Q) | PInf | NInf | NaN.

(** Element-wise [/] of two integer columns: no exception on a zero
    divisor. *)
Definition fdiv (a b : Z) : fnum :=
  if b =? 0 then
    (if a =? 0 then NaN else if a >? 0 then PInf else NInf)
  else Fin (Qred (inject_Z a / inject_Z b)%Q).

Definition fmul100 (x : fnum) : fnum :=
  match x with
  | Fin q => Fin (Qred (q * inject_Z 100)%Q)
  | other => other
  end.

(** An [Optional[str]] parameter tested by [if p:]: [None] and the empty
    string are both false. *)
Definition truthy (p : option string) : bool :=
  match p with
  | Some (String _ _) => true
  | _ => false
  end.

(** ** database.py *)

Module Database.

(** The columns of [ad_data] that the queries read. *)
Record AdData := mkAdData {
  id : Z;
  date : string;
  channel : string;
  clicks : Z;
  conversions : Z;
  conversion_rate : Q
}.

(** The table and its autoincrement counter. *)
Record Table := mkTable { rows : list AdData; next_id : Z }.

(** One entry of ['data'] in the result of [get_stats]. *)
Record DataRow := mkDataRow {
  r_id : Z;
  r_date : string;
  r_channel : string;
  r_clicks : Z;
  r_conversions : Z;
  r_conversion_rate : Q
}.

Record Summary := mkSummary {
  total_records : nat;
  total_clicks : Z;
  total_conversions : Z;
  avg_conversion_rate : Q
}.

Record StatsResult := mkStatsResult { data : list DataRow; summary : Summary }.

(** One [query.filter(...)] step per parameter that is set.  The bound of
    a date filter is the date that the database has read from the
    parameter, in ISO text. *)
Definition filter_start (start_date : string) (query : list AdData) :=
  filter (λ r, (start_date ≤ date r)%string) query.
Definition filter_end (end_date : string) (query : list AdData) :=
  filter (λ r, (date r ≤ end_date)%string) query.
Definition filter_channel (ch : string) (query : list AdData) :=
  filter (λ r, channel r = ch) query.

(** [if p: query = query.filter(...)]. *)
Definition step (p : option string) (f : string → list AdData → list AdData)
    (query : list AdData) : list AdData :=
  match p with
  | Some s => if truthy p then f s query else query
  | None => query
  end.

(** Lines 86-96 of [get_stats]: the filtered query and [query.all()]. *)
Definition query_all (start_date end_date channel : option string)
    (table : list AdData) : list AdData :=
  let query := table in
  let query := step start_date filter_start query in
  let query := step end_date filter_end query in
  let query := step channel filter_channel query in
  query.

(** Lines 100-108 of [get_stats]: one dictionary per row. *)
Definition to_dict (record : AdData) : DataRow :=
  mkDataRow (id record) (date record) (channel record) (clicks record)
            (conversions record) (round2 (conversion_rate record)).

(** Lines 110-122 of [get_stats]: the summary statistics of the rows
    returned. *)
Definition summarize (data : list DataRow) : Summary :=
  let total_clicks := sum (r_clicks <$> data) in
  let total_conversions := sum (r_conversions <$> data) in
  let avg_conversion_rate :=
    if total_clicks >? 0 then rate total_conversions total_clicks
    else (0 # 1)%Q in
  mkSummary (length data) total_clicks total_conversions
            (round2 avg_conversion_rate).

Definition get_stats (start_date end_date channel : option string)
    (table : Table) : StatsResult :=
  let results := query_all start_date end_date channel (rows table) in
  let data := to_dict <$> results in
  mkStatsResult data (summarize data).

Record ChannelSummary := mkChannelSummary {
  cs_channel : string;
  record_count : nat;
  cs_total_clicks : Z;
  cs_total_conversions : Z;
  cs_avg_conversion_rate : Q
}.

(** [GROUP BY channel]: one row per distinct channel with its
    aggregates. *)
Definition group (table : list AdData) (ch : string) : ChannelSummary :=
  let g := filter (λ r, channel r = ch) table in
  mkChannelSummary ch (length g) (sum (clicks <$> g))
                   (sum (conversions <$> g)) (mean (conversion_rate <$> g)).

Definition group_by_channel (table : list AdData) : list ChannelSummary :=
  group table <$> remove_dups (channel <$> table).

(** [ORDER BY total_clicks DESC]. *)
Definition clicks_desc (a b : ChannelSummary) : Prop :=
  cs_total_clicks b ≤ cs_total_clicks a.

#[global] Instance clicks_desc_dec : RelDecision clicks_desc.
Proof. intros a b. unfold clicks_desc. apply _. Defined.

Definition round_row (row : ChannelSummary) : ChannelSummary :=
  mkChannelSummary (cs_channel row) (record_count row) (cs_total_clicks row)
                   (cs_total_conversions row)
                   (round2 (cs_avg_conversion_rate row)).

(** The order in which the engine forms the groups, and with it the
    order among groups of equal [total_clicks], is the engine's; the
    model fixes one such order. *)
Definition get_channel_summary (table : Table) : list ChannelSummary :=
  round_row <$> merge_sort clicks_desc (group_by_channel (rows table)).

End Database.

(** ** data_processing.py *)

Module DataProcessing.

(** A row of the uploaded frame after [pd.to_numeric(..., errors='coerce')]:
    [None] is NaN.  The required columns are present; [has_impressions]
    tells whether the optional [impressions] column is.  Numeric cells hold
    whole numbers; fractional cells are outside this model. *)
Record RawRow := mkRawRow {
  raw_date : string;
  raw_channel : string;
  raw_impressions : option Z;
  raw_clicks : option Z;
  raw_conversions : option Z
}.

Record RawFrame := mkRawFrame { has_impressions : bool; raw_rows : list RawRow }.

(** A record of [df.to_dict('records')]. *)
Record Record_ := mkRecord {
  date : string;
  channel : string;
  impressions : option Z;
  clicks : Z;
  conversions : Z;
  ctr : option Q;
  conversion_rate : Q
}.

(** [column > 0] on a cell: false on NaN. *)
Definition gt0 (cell : option Z) : Prop :=
  match cell with Some n => 0 < n | None => False end.

#[global] Instance gt0_dec cell : Decision (gt0 cell).
Proof. destruct cell; simpl; apply _. Defined.

Definition notna (r : RawRow) : Prop :=
  is_Some (raw_clicks r) ∧ is_Some (raw_conversions r).

Definition to_record (with_ctr : bool) (r : RawRow) : option Record_ :=
  match raw_clicks r, raw_conversions r with
  | Some c, Some v =>
      Some (mkRecord (raw_date r) (raw_channel r) (raw_impressions r) c v
              (if with_ctr
               then (λ i, Qred (inject_Z c / inject_Z i * inject_Z 100)%Q)
                      <$> raw_impressions r
               else None)
              (Qred (rate v c)))
  | _, _ => None
  end.

Definition process_csv_data (df : RawFrame) : list Record_ :=
  let df1 :=
    if has_impressions df
    then filter (λ r, gt0 (raw_impressions r)) (raw_rows df)
    else raw_rows df in
  let df2 := filter notna df1 in
  let df3 := filter (λ r, gt0 (raw_clicks r)) df2 in
  omap (to_record (has_impressions df)) df3.

(** A row of the frames handed to the aggregations and to the
    dashboard. *)
Record Row := mkRow {
  row_date : string;
  row_channel : string;
  row_clicks : Z;
  row_conversions : Z;
  row_conversion_rate : Q
}.

(** A row of an aggregated frame: the group key and the three
    aggregated columns. *)
Record Agg := mkAgg {
  agg_key : string;
  agg_clicks : Z;
  agg_conversions : Z;
  agg_conversion_rate : fnum
}.

(** [df.groupby(key).agg({'clicks': 'sum', 'conversions': 'sum',
    'conversion_rate': 'mean'}).reset_index()]: one row per distinct
    key, the keys in ascending order ([sort=True] is the default).  Every
    row has a key, and the sums are exact: they are those of pandas as
    long as no 64-bit sum wraps around. *)
Definition groupby_agg (key : Row → string) (df : list Row) : list Agg :=
  (λ k, let g := filter (λ r, key r = k) df in
        mkAgg k (sum (row_clicks <$> g)) (sum (row_conversions <$> g))
              (Fin (mean (row_conversion_rate <$> g))))
    <$> merge_sort String.le (remove_dups (key <$> df)).

(** The column assignment that follows the aggregation. *)
Definition recalculate (a : Agg) : Agg :=
  mkAgg (agg_key a) (agg_clicks a) (agg_conversions a)
        (fmul100 (fdiv (agg_conversions a) (agg_clicks a))).

Definition aggregate_by (key : Row → string) (df : list Row) : list Agg :=
  match df with
  | [] => []
  | _ => recalculate <$> groupby_agg key df
  end.

Definition aggregate_by_channel : list Row → list Agg :=
  aggregate_by row_channel.

Definition aggregate_by_date : list Row → list Agg :=
  aggregate_by row_date.

End DataProcessing.

(** ** dashboard.py *)

Module Dashboard.
Import DataProcessing.

(** Lines 188-198 of [main]: [date_range] is the tuple returned by the
    date picker, [all_channels] the label of the "no channel" choice. *)
Definition apply_filters (date_range : list string)
    (selected_channel all_channels : string) (df : list Row) : list Row :=
  let filtered_df := df in
  let filtered_df :=
    match date_range with
    | [start_date; end_date] =>
        filter (λ r, (start_date ≤ row_date r)%string
                     ∧ (row_date r ≤ end_date)%string) filtered_df
    | _ => filtered_df
    end in
  let filtered_df :=
    if decide (selected_channel ≠ all_channels)
    then filter (λ r, row_channel r = selected_channel) filtered_df
    else filtered_df in
  filtered_df.

End Dashboard.

(** ** main.py *)

Module Main.
Import Database.


(** The process state: the module-level [cache], the database, and a
    count of the calls made to [get_stats] (instrumentation only). *)
Record Server := mkServer {
  cache : CacheManager.t StatsResult;
  db : Table;
  calls : nat
}.


(** How an f-string renders an [Optional[str]]. *)
Definition fmt (p : option string) : string :=
  match p with Some s => s | None => "None" end.

Definition cache_key (start_date end_date channel : option string) : string :=
  "stats_" +:+ fmt start_date +:+ "_" +:+ fmt end_date +:+ "_"
           +:+ fmt channel.

(** [if cached_result:] on a result of [get_stats]: a dict holding the
    two keys ['data'] and ['summary'] is never empty. *)
Definition stats_truthy (r : StatsResult) : bool := true.

(** [GET /data/stats] on the path where [get_stats] returns, its date
    parameters being ISO dates already; [Service.get_statistics] is the
    handler with the database's reading of the parameters and the [except]
    path.  [t_get] and [t_set] are the clock readings of [cache.get] and
    of [cache.set]. *)
Definition get_statistics (start_date end_date channel : option string)
    (t_get t_set : Z) (s : Server) : StatsResult * Server :=
  let key := cache_key start_date end_date channel in
  let '(cached_result, c) := CacheManager.get t_get key (cache s) in
  let miss :=
    let stats := get_stats start_date end_date channel (db s) in
    (stats,
     mkServer (CacheManager.set t_set key stats (Some 300) c) (db s)
              (S (calls s))) in
  match cached_result with
  | Some r => if stats_truthy r then (r, mkServer c (db s) (calls s)) else miss
  | None => miss
  end.



End Main.

(** ** Sequences of requests *)

Module Session.
Import Main.




(** The character [_] (code 95). *)
Definition underscore : Ascii.ascii :=
  Ascii.Ascii true true true true true false true false.

Fixpoint has_underscore (s : string) : bool :=
  match s with
  | EmptyString => false
  | String a s' => if Ascii.eqb a underscore then true else has_underscore s'
  end.

(** Filter parameters whose text can be read back from the cache key: the
    two dates hold no underscore, and no parameter is the text ["None"]. *)
Definition readable (start_date end_date channel : option string) : Prop :=
  has_underscore (fmt start_date) = false
  ∧ has_underscore (fmt end_date) = false
  ∧ start_date ≠ Some "None" ∧ end_date ≠ Some "None"
  ∧ channel ≠ Some "None".



End Session.

(** ** dashboard.py: loading and key metrics *)

Module DashboardData.
Import DataProcessing.

(** [ORDER BY date DESC, channel]. *)
Definition load_order (a b : Database.AdData) : Prop :=
  if decide (Database.date a = Database.date b)
  then (Database.channel a ≤ Database.channel b)%string
  else (Database.date b ≤ Database.date a)%string.

#[global] Instance load_order_dec : RelDecision load_order.
Proof. intros a b. unfold load_order. case_decide; apply _. Defined.

Definition to_row (r : Database.AdData) : Row :=
  mkRow (Database.date r) (Database.channel r) (Database.clicks r)
        (Database.conversions r) (Database.conversion_rate r).

(** [load_data]: the five selected columns of every row of [ad_data], in
    the order of the query. *)
Definition load_data (table : Database.Table) : list Row :=
  to_row <$> merge_sort load_order (Database.rows table).

Record Metrics := mkMetrics {
  total_clicks : Z;
  total_conversions : Z;
  avg_conversion_rate : Q;
  total_records : nat
}.

(** Lines 204-207 of [main]: the key metrics of the filtered frame, before
    they are formatted. *)
Definition key_metrics (filtered_df : list Row) : Metrics :=
  let total_clicks := sum (row_clicks <$> filtered_df) in
  let total_conversions := sum (row_conversions <$> filtered_df) in
  let avg_conversion_rate :=
    if total_clicks >? 0 then rate total_conversions total_clicks
    else (0 # 1)%Q in
  let total_records := length filtered_df in
  mkMetrics total_clicks total_conversions avg_conversion_rate total_records.

End DashboardData.

(** ** auth.py and the credential check of [login] *)

Module Auth.





End Auth.

(** ** The statistics query with the database's reading of its dates *)

Module Service.
Import Database Main.

Section Parser.

(** How PostgreSQL reads a date parameter: [parse_date s] is the ISO text
    of the date it reads from the text [s], or [None] when it rejects [s],
    in which case the statement raises. *)
Variable parse_date : string → option string.

(** The bound of a date filter: none when [if p:] is false, else the date
    read from the parameter; [None] when the database rejects it. *)
Definition bound (p : option string) : option (option string) :=
  match p with
  | Some s => if truthy p then Some <$> parse_date s else Some None
  | None => Some None
  end.

(** Lines 86-96 of [get_stats]; [None] when [query.all()] raises. *)
Definition query_all (start_date end_date channel : option string)
    (table : list AdData) : option (list AdData) :=
  match bound start_date, bound end_date with
  | Some lo, Some hi =>
      let query := table in
      let query :=
        match lo with Some d => filter_start d query | None => query end in
      let query :=
        match hi with Some d => filter_end d query | None => query end in
      let query := step channel filter_channel query in
      Some query
  | _, _ => None
  end.

(** [get_stats]; [None] when it raises. *)
Definition get_stats (start_date end_date channel : option string)
    (table : Table) : option StatsResult :=
  match query_all start_date end_date channel (rows table) with
  | Some results =>
      let data := to_dict <$> results in
      Some (mkStatsResult data (summarize data))
  | None => None
  end.

(** What the handler answers: the statistics, or the 500 error of its
    [except] clause. *)
Inductive Reply := Ok (stats : StatsResult) | Error500.

(** [GET /data/stats].  [calls] counts the invocations of [get_stats],
    those that raise included; when [get_stats] raises nothing is stored
    in the cache. *)
Definition get_statistics (start_date end_date channel : option string)
    (t_get t_set : Z) (s : Server) : Reply * Server :=
  let key := cache_key start_date end_date channel in
  let '(cached_result, c) := CacheManager.get t_get key (cache s) in
  let miss :=
    match get_stats start_date end_date channel (db s) with
    | Some stats =>
        (Ok stats,
         mkServer (CacheManager.set t_set key stats (Some 300) c) (db s)
                  (S (calls s)))
    | None => (Error500, mkServer c (db s) (S (calls s)))
    end in
  match cached_result with
  | Some r => if stats_truthy r then (Ok r, mkServer c (db s) (calls s)) else miss
  | None => miss
  end.

End Parser.
End Service.

(** ** Filtering steps *)


(** * Properties *)

(** ** The expiring cache *)

Module CacheProps.
Import CacheManager.

Section Lemmas.
Context {V : Type}.
Implicit Types (self : t V) (m : gmap string (Entry V)).

Lemma lookup_foldl_delete (ks : list string) m (k : string) :
  foldl (λ m key, base.delete key m) m ks !! k
  = if decide (k ∈ ks) then None else m !! k.
Proof.
  revert m. induction ks as [|k0 ks IH]; intros m; simpl.
  - destruct (decide (k ∈ [])) as [H|_]; [by apply elem_of_nil in H | done].
  - rewrite IH.
    destruct (decide (k ∈ ks)) as [Hin|Hin];
      destruct (decide (k ∈ k0 :: ks)) as [Hin'|Hin']; try done.
    + exfalso. apply Hin'. by right.
    + apply elem_of_cons in Hin' as [->|?]; [|done].
      apply lookup_delete_eq.
    + apply lookup_delete_ne. intros ->. apply Hin'. by left.
Qed.

Lemma elem_of_expired_keys (now : Z) self (k : string) :
  k ∈ expired_keys now self
  ↔ ∃ e, _cache self !! k = Some e ∧ expires_at e < now.
Proof.
  unfold expired_keys. rewrite list_elem_of_fmap. split.
  - intros [[k' e] [-> Hin]]. apply list_elem_of_filter in Hin as [Hp Hin].
    simpl in *. exists e. split; [by apply elem_of_map_to_list | lia].
  - intros (e & Hk & Hlt). exists (k, e). split; [done|].
    apply list_elem_of_filter. split; [simpl; lia|].
    by apply elem_of_map_to_list.
Qed.

Lemma cleanup_expired_lookup (now : Z) self (k : string) :
  _cache (cleanup_expired now self).2 !! k
  = match _cache self !! k with
    | Some e => if decide (expires_at e < now) then None else Some e
    | None => None
    end.
Proof.
  simpl. rewrite lookup_foldl_delete.
  destruct (_cache self !! k) as [e|] eqn:Hk.
  - destruct (decide (expires_at e < now)) as [Hlt|Hge].
    + rewrite decide_True; [done|]. apply elem_of_expired_keys. eauto.
    + rewrite decide_False; [done|].
      intros (e' & He' & Hlt)%elem_of_expired_keys. congruence.
  - by case_decide.
Qed.

Lemma cleanup_expired_filter (now : Z) self :
  _cache (cleanup_expired now self).2
  = filter (λ kv, now ≤ expires_at kv.2) (_cache self).
Proof.
  apply map_eq; intros k. rewrite cleanup_expired_lookup.
  rewrite map_lookup_filter.
  destruct (_cache self !! k) as [e|]; simpl; [|done].
  case_decide; case_guard; simpl in *; try done; lia.
Qed.

Lemma length_expired_keys (now : Z) self :
  length (expired_keys now self)
  = size (filter (λ kv : string * Entry V, expires_at kv.2 < now)
                 (_cache self)).
Proof.
  unfold expired_keys. rewrite length_fmap.
  rewrite <- length_map_to_list, map_filter_alt.
  rewrite map_to_list_to_map.
  - f_equal. apply list_filter_iff. intros [k e]; simpl. lia.
  - apply (sublist_NoDup _ (map_to_list (_cache self)).*1).
    + apply NoDup_fst_map_to_list.
    + apply fmap_sublist, sublist_filter.
Qed.

Lemma size_split (now : Z) m :
  size m
  = Nat.add (size (filter (λ kv : string * Entry V, expires_at kv.2 < now) m))
            (size (filter (λ kv : string * Entry V, now ≤ expires_at kv.2) m)).
Proof.
  rewrite <- map_size_disj_union.
  - f_equal. rewrite <- (map_filter_union_complement
               (λ kv : string * Entry V, expires_at kv.2 < now) m) at 1.
    f_equal. apply map_filter_ext. intros k e _. simpl. lia.
  - apply map_disjoint_spec. intros k e1 e2
      [H1 Hp1]%map_lookup_filter_Some [H2 Hp2]%map_lookup_filter_Some.
    simpl in *. assert (e1 = e2) by congruence. subst. lia.
Qed.


(** C1.  [get] never hands out a value whose [expires_at] has passed.
    If the key is absent, [get] returns absent and leaves the cache
    alone; if its entry has [now > expires_at], [get] deletes that entry
    and returns absent; if its entry has [now <= expires_at], [get]
    returns the stored value and leaves the cache alone.  Conversely
    every value returned comes from an entry that is still live. *)
Theorem get_never_returns_expired (now : Z) (key : string) self :
  (_cache self !! key = None → get now key self = (None, self))
  ∧ (∀ entry, _cache self !! key = Some entry → now > expires_at entry →
       get now key self
       = (None, with_cache self (base.delete key (_cache self)))
       ∧ _cache (get now key self).2 !! key = None)
  ∧ (∀ entry, _cache self !! key = Some entry → now ≤ expires_at entry →
       get now key self = (Some (value entry), self))
  ∧ (∀ v, (get now key self).1 = Some v →
       ∃ entry, _cache self !! key = Some entry ∧ value entry = v
                ∧ live now entry).
Proof.
  unfold get, live. split; [|split; [|split]].
  - by intros ->.
  - intros entry -> Hgt. rewrite (proj2 (Z.gtb_gt _ _)) by lia.
    split; [done|]. simpl. apply lookup_delete_eq.
  - intros entry -> Hle.
    destruct (Z.gtb_spec now (expires_at entry)); [lia|done].
  - intros v. destruct (_cache self !! key) as [entry|]; [|done].
    destruct (Z.gtb_spec now (expires_at entry)); [done|].
    simpl. intros [= <-]. exists entry. split; [done|]. split; [done|lia].
Qed.

(** C7, as the code has it.  After [set(k, v, ttl)] read at clock [t]
    with [ttl <= 0], a [get(k)] read at a clock [t' >= t] returns absent
    exactly when [ttl < 0] or the clock has advanced ([t < t']); with
    [ttl = 0] and an unchanged clock reading the value is still
    returned. *)
Theorem nonpositive_ttl_expired (t t' ttl : Z) (key : string) (v : V) self :
  ttl ≤ 0 → t ≤ t' →
  ((get t' key (set t key v (Some ttl) self)).1 = None ↔ ttl < 0 ∨ t < t')
  ∧ ((get t' key (set t key v (Some ttl) self)).1 = Some v ↔ ttl = 0 ∧ t' = t).
Proof.
  intros Httl Hclock. unfold get, set. simpl. rewrite lookup_insert_eq. simpl.
  destruct (Z.gtb_spec t' (t + ttl)); simpl; split; split;
    try done; try lia; intros; try (exfalso; lia).
Qed.

(** C9.  [cleanup_expired] removes exactly the entries with
    [expires_at < now], keeps every other entry as it was, and returns
    the number of entries it removed; [get_stats] sweeps first, so its
    [total_entries] is the number of entries with [now <= expires_at]
    and its [cache_keys] lists exactly their keys, each once. *)
Theorem sweep_removes_exactly_expired (now : Z) self :
  let swept := cleanup_expired now self in
  let stats := (get_stats now self).1 in
  (∀ k e, _cache swept.2 !! k = Some e
          ↔ _cache self !! k = Some e ∧ ¬ expires_at e < now)
  ∧ swept.1 = size (filter (λ kv : string * Entry V, expires_at kv.2 < now)
                           (_cache self))
  ∧ size (_cache self) = Nat.add swept.1 (size (_cache swept.2))
  ∧ (get_stats now self).2 = swept.2
  ∧ total_entries stats
    = size (filter (λ kv : string * Entry V, live now kv.2) (_cache self))
  ∧ (∀ k, k ∈ cache_keys stats
          ↔ ∃ e, _cache self !! k = Some e ∧ live now e)
  ∧ NoDup (cache_keys stats)
  ∧ length (cache_keys stats) = total_entries stats.
Proof.
  intros swept stats. unfold live.
  assert (Hf : _cache swept.2
               = filter (λ kv, now ≤ expires_at kv.2) (_cache self))
    by apply cleanup_expired_filter.
  assert (Hn : swept.1 = length (expired_keys now self)) by done.
  assert (Hs : (get_stats now self).1
               = mkStats (size (_cache swept.2))
                         (map_to_list (_cache swept.2)).*1) by done.
  assert (Hs2 : (get_stats now self).2 = swept.2) by done.
  subst stats. rewrite Hs, Hs2. clearbody swept. cbn [total_entries cache_keys].
  rewrite Hf, Hn. clear Hs Hs2 Hf Hn.
  split; [|split; [|split; [|split; [|split; [|split; [|split]]]]]].
  - intros k e. rewrite map_lookup_filter_Some. simpl.
    split; (intros [Hk Hle]; split; [done|lia]).
  - apply length_expired_keys.
  - rewrite length_expired_keys. apply size_split.
  - done.
  - done.
  - intros k. rewrite list_elem_of_fmap. split.
    + intros [[k' e] [-> Hin]].
      apply elem_of_map_to_list, map_lookup_filter_Some in Hin. eauto.
    + intros (e & Hk & Hle). exists (k, e). split; [done|].
      by apply elem_of_map_to_list, map_lookup_filter_Some.
  - apply NoDup_fst_map_to_list.
  - by rewrite length_fmap, length_map_to_list.
Qed.

(** C10.  [get(k)], [set(k, v, ttl)] and [delete(k)] leave the entry of
    every other key as it was, value and expiry time alike. *)
Theorem single_key_ops_frame (now : Z) (key key' : string) (v : V)
    (ttl : option Z) self :
  key' ≠ key →
  _cache (get now key self).2 !! key' = _cache self !! key'
  ∧ _cache (set now key v ttl self) !! key' = _cache self !! key'
  ∧ _cache (delete key self).2 !! key' = _cache self !! key'.
Proof.
  intros Hne. unfold get, set, delete. repeat split.
  - destruct (_cache self !! key) as [entry|]; [|done].
    destruct (now >? expires_at entry); [|done].
    simpl. by apply lookup_delete_ne.
  - simpl. by apply lookup_insert_ne.
  - destruct (_cache self !! key); [|done]. simpl. by apply lookup_delete_ne.
Qed.

End Lemmas.

(** [get] on a one-entry cache, on both sides of the expiry time. *)
Lemma get_never_returns_expired_witness :
  get 11 "k" (mk {["k" := mkEntry 7 10]} 300)
  = (None, mk (base.delete "k" {["k" := mkEntry 7 10]}) 300)
  ∧ get 10 "k" (mk {["k" := mkEntry 7 10]} 300)
    = (Some 7, mk {["k" := mkEntry 7 10]} 300).
Proof.
  pose proof (get_never_returns_expired 11 "k"
                (mk {["k" := mkEntry 7 10]} 300)) as (_ & H1 & _).
  pose proof (get_never_returns_expired 10 "k"
                (mk {["k" := mkEntry 7 10]} 300)) as (_ & _ & H2 & _).
  split.
  - apply (H1 (mkEntry 7 10)); [reflexivity | simpl; lia].
  - apply (H2 (mkEntry 7 10)); [reflexivity | simpl; lia].
Defined.

(** C7 as stated fails: a zero ttl read back at the same clock reading. *)
Lemma zero_ttl_same_reading_is_served :
  (get 5 "k" (set 5 "k" 42 (Some 0) (init 300))).1 = Some 42.
Proof. reflexivity. Qed.

Lemma nonpositive_ttl_expired_witness :
  (get 5 "k" (set 5 "k" 42 (Some (-1)) (init 300))).1 = None.
Proof.
  apply (nonpositive_ttl_expired 5 5 (-1) "k" 42 (init 300)); lia.
Defined.

Lemma single_key_ops_frame_witness :
  _cache (get 11 "a" (mk {["a" := mkEntry 1 10; "b" := mkEntry 2 20]} 300)).2 !! "b"
  = Some (mkEntry 2 20).
Proof.
  rewrite (proj1 (single_key_ops_frame 11 "a" "b" 0 None
                    (mk {["a" := mkEntry 1 10; "b" := mkEntry 2 20]} 300)
                    ltac:(discriminate))).
  reflexivity.
Defined.

End CacheProps.

(** ** Sums *)

Lemma foldl_add_acc (l : list Z) (a : Z) : foldl Z.add a l = a + foldl Z.add 0 l.
Proof.
  revert a. induction l as [|x l IH]; intros a; cbn [foldl]; [lia|].
  rewrite (IH (a + x)), (IH (0 + x)). lia.
Qed.


Lemma sum_cons (x : Z) (l : list Z) : sum (x :: l) = x + sum l.
Proof. unfold sum. simpl. apply foldl_add_acc. Qed.


(** ** Filters *)

Section FilterFacts.
Context {A : Type}.
Implicit Types l : list A.





End FilterFacts.

(** ** The filters of [get_stats] and of the dashboard *)

Module FilterProps.
Import Database.





End FilterProps.

(** ** The summary of [get_stats] *)

Module SummaryProps.
Import Database.



End SummaryProps.

(** ** Records with no clicks *)

Module ZeroClickProps.
Import Database.








End ZeroClickProps.

(** ** Grouping by channel and by date *)

Module GroupProps.
Import Database DataProcessing.

#[local] Instance clicks_desc_trans : Transitive clicks_desc.
Proof. intros a b c. unfold clicks_desc. lia. Qed.

#[local] Instance clicks_desc_total : Total clicks_desc.
Proof. intros a b. unfold clicks_desc. lia. Qed.

Lemma groupby_keys (key : Row → string) (df : list Row) :
  agg_key <$> aggregate_by key df
  = merge_sort String.le (remove_dups (key <$> df)).
Proof.
  unfold aggregate_by, groupby_agg. destruct df as [|r df]; [done|].
  rewrite <- !list_fmap_compose.
  rewrite <- (list_fmap_id (merge_sort _ _)) at 2.
  by apply list_fmap_ext.
Qed.

Lemma channel_summary_channels (table : Table) :
  cs_channel <$> get_channel_summary table
  ≡ₚ remove_dups (Database.channel <$> rows table).
Proof.
  unfold get_channel_summary. rewrite <- list_fmap_compose.
  rewrite (list_fmap_ext (cs_channel ∘ round_row) cs_channel) by done.
  rewrite merge_sort_Permutation. unfold group_by_channel.
  rewrite <- list_fmap_compose.
  rewrite (list_fmap_ext (cs_channel ∘ group (rows table)) Datatypes.id) by done.
  by rewrite list_fmap_id.
Qed.

(** Where the group has clicks, the pandas aggregations report the rate
    of the group totals. *)
Lemma aggregate_by_rate_of_totals (key : Row → string) (df : list Row) (a : Agg) :
  a ∈ aggregate_by key df → agg_clicks a ≠ 0 →
  agg_conversion_rate a
  = Fin (Qred (Qred (inject_Z (agg_conversions a) / inject_Z (agg_clicks a))
               * inject_Z 100)%Q).
Proof.
  intros Hin Hne. unfold aggregate_by in Hin.
  destruct df as [|r df]; [by apply elem_of_nil in Hin|].
  apply list_elem_of_fmap in Hin as (a0 & -> & _).
  unfold recalculate, fdiv. simpl in *.
  by destruct (Z.eqb_spec (agg_clicks a0) 0).
Qed.

(** C3, on the code.  [get_channel_summary] reports the mean of the
    per-record rates of a channel: for two "search" rows of 100 clicks at
    10% and 200 clicks at 15% it reports 12.5, where the totals give
    40/300 × 100 = 13.33.  [aggregate_by_channel] and [aggregate_by_date]
    do recompute the rate from the group totals, but without the
    zero-guard: a group whose total clicks are 0 gets NaN, not 0. *)
Theorem channel_summary_averages_row_rates :
  cs_avg_conversion_rate
    <$> get_channel_summary
          (mkTable [mkAdData 1 "2024-01-01" "search" 100 10 (10 # 1);
                    mkAdData 2 "2024-01-02" "search" 200 30 (15 # 1)] 3)
  = [(25 # 2)%Q]
  ∧ round2 (rate (10 + 30) (100 + 200)) = (1333 # 100)%Q
  ∧ agg_conversion_rate
      <$> aggregate_by_channel [mkRow "2024-01-01" "search" 0 0 (0 # 1)]
    = [NaN]
  ∧ agg_conversion_rate
      <$> aggregate_by_date [mkRow "2024-01-01" "search" 0 0 (0 # 1)]
    = [NaN].
Proof. repeat split; vm_compute; reflexivity. Qed.

(** C6, as the code has it.  [get_channel_summary] returns one summary
    per distinct channel, sorted descending by [total_clicks]; the order
    among channels of equal [total_clicks] is left to the database.
    [aggregate_by_channel] returns one row per distinct channel in
    ascending channel order, whatever the totals. *)
Theorem channel_summary_sorted_by_clicks (table : Table) (df : list Row) :
  StronglySorted clicks_desc (get_channel_summary table)
  ∧ cs_channel <$> get_channel_summary table
    ≡ₚ remove_dups (Database.channel <$> rows table)
  ∧ NoDup (cs_channel <$> get_channel_summary table)
  ∧ StronglySorted String.le (agg_key <$> aggregate_by_channel df)
  ∧ NoDup (agg_key <$> aggregate_by_channel df)
  ∧ (∀ ch, ch ∈ agg_key <$> aggregate_by_channel df
           ↔ ch ∈ row_channel <$> df).
Proof.
  split; [|split; [|split; [|split; [|split]]]].
  - unfold get_channel_summary.
    apply (StronglySorted_fmap round_row clicks_desc clicks_desc); [done|].
    apply StronglySorted_merge_sort; apply _.
  - apply channel_summary_channels.
  - rewrite channel_summary_channels. apply NoDup_remove_dups.
  - unfold aggregate_by_channel. rewrite groupby_keys.
    apply StronglySorted_merge_sort; apply _.
  - unfold aggregate_by_channel.
    rewrite groupby_keys, merge_sort_Permutation. apply NoDup_remove_dups.
  - intros ch. unfold aggregate_by_channel.
    by rewrite groupby_keys, merge_sort_Permutation, elem_of_remove_dups.
Qed.

(** C6 as stated fails on [aggregate_by_channel]: the groups come in
    channel order, here ascending by clicks, and two channels of equal
    clicks come in channel order rather than in first-seen order. *)
Lemma aggregate_by_channel_in_channel_order :
  (λ a, (agg_key a, agg_clicks a))
    <$> aggregate_by_channel [mkRow "2024-01-01" "search" 300 40 (40 # 3);
                              mkRow "2024-01-01" "display" 10 1 (10 # 1)]
  = [("display", 10); ("search", 300)]
  ∧ (λ a, (agg_key a, agg_clicks a))
      <$> aggregate_by_channel [mkRow "2024-01-01" "social" 50 5 (10 # 1);
                                mkRow "2024-01-01" "search" 50 4 (8 # 1)]
    = [("search", 50); ("social", 50)].
Proof. split; vm_compute; reflexivity. Qed.

End GroupProps.

(** ** The [/data/stats] handler *)

Module HandlerProps.
Import Database Main.

Section TwoCalls.
Variable parse_date : string → option string.
Variables (start_date end_date channel : option string).
Variables (t1 t1' t2 t2' : Z) (s : Server).

Let key := cache_key start_date end_date channel.

Hypothesis first_misses : (CacheManager.get t1 key (cache s)).1 = None.





End TwoCalls.




End HandlerProps.

(** ** More on the expiring cache *)

Module CacheMore.
Import CacheManager.

Section Facts.
Context {V : Type}.
Implicit Types (self : t V) (m : gmap string (Entry V)).

Lemma with_cache_id self : with_cache self (_cache self) = self.
Proof. by destruct self. Qed.

Lemma expired_keys_nil (now : Z) self :
  (∀ k e, _cache self !! k = Some e → now ≤ expires_at e) →
  expired_keys now self = [].
Proof.
  intros Hlive. destruct (expired_keys now self) as [|k ks] eqn:Hks; [done|].
  assert (Hin : k ∈ expired_keys now self) by (rewrite Hks; left).
  apply CacheProps.elem_of_expired_keys in Hin as (e & Hk & Hlt).
  apply Hlive in Hk. lia.
Qed.

(** [set] then [get]: whatever the cache held before, a [get] of the key
    no later than [ttl] after the [set] returns the value just stored and
    changes nothing; a later [get] returns absent and leaves the cache as
    if the key had been deleted.  Without a [ttl] argument the cache's
    [default_ttl] counts. *)
Theorem set_then_get (t t' : Z) (key : string) (v : V) (ttl : option Z) self :
  let self' := set t key v ttl self in
  let d := match ttl with Some n => n | None => default_ttl self end in
  (t' ≤ t + d → get t' key self' = (Some v, self'))
  ∧ (t + d < t' →
       get t' key self' = (None, with_cache self (base.delete key (_cache self)))).
Proof.
  intros self' d. unfold get, self', set. simpl. rewrite lookup_insert_eq. simpl.
  fold d. split; intros Ht.
  - by destruct (Z.gtb_spec t' (t + d)); [lia|].
  - destruct (Z.gtb_spec t' (t + d)); [|lia].
    unfold with_cache. simpl. by rewrite delete_insert_eq.
Qed.

(** A second [set] of a key replaces the first altogether: value and
    expiry time are those of the second call, also when that shortens the
    life of the entry. *)
Theorem set_overwrites (t1 t2 : Z) (key : string) (v1 v2 : V)
    (ttl1 ttl2 : option Z) self :
  set t2 key v2 ttl2 (set t1 key v1 ttl1 self) = set t2 key v2 ttl2 self
  ∧ _cache (set t2 key v2 ttl2 (set t1 key v1 ttl1 self)) !! key
    = Some (mkEntry v2 (t2 + match ttl2 with
                               | Some n => n
                               | None => default_ttl self
                               end)).
Proof.
  unfold set, with_cache. simpl. rewrite insert_insert_eq.
  split; [done | apply lookup_insert_eq].
Qed.

(** [delete] reports whether the key had an entry, expired or not; after
    it the key has none, a [get] returns absent at any time, and a second
    [delete] reports [False] and changes nothing. *)
Theorem delete_reports_presence (key : string) self :
  ((delete key self).1 = true ↔ is_Some (_cache self !! key))
  ∧ _cache (delete key self).2 !! key = None
  ∧ (∀ now, get now key (delete key self).2 = (None, (delete key self).2))
  ∧ delete key (delete key self).2 = (false, (delete key self).2).
Proof.
  assert (Hgone : _cache (delete key self).2 !! key = None).
  { unfold delete. destruct (_cache self !! key) eqn:Hk; simpl; [|done].
    apply lookup_delete_eq. }
  split; [|split; [done|split]].
  - unfold delete. destruct (_cache self !! key); simpl.
    + split; [eauto | done].
    + split; [done | by intros [? ?]].
  - intros now. unfold get. by rewrite Hgone.
  - unfold delete at 1. by rewrite Hgone.
Qed.

(** [clear] leaves nothing behind: every [get] returns absent, every
    [delete] reports [False], a sweep removes nothing, the statistics show
    no entry, and a second [clear] changes nothing.  The default
    time-to-live is kept. *)
Theorem clear_empties (now : Z) (key : string) self :
  get now key (clear self) = (None, clear self)
  ∧ delete key (clear self) = (false, clear self)
  ∧ cleanup_expired now (clear self) = (0%nat, clear self)
  ∧ get_stats now (clear self) = (mkStats 0 [], clear self)
  ∧ clear (clear self) = clear self
  ∧ default_ttl (clear self) = default_ttl self.
Proof.
  assert (Hexp : expired_keys now (clear self) = []).
  { apply expired_keys_nil. intros k e. simpl. by rewrite lookup_empty. }
  assert (Hsweep : cleanup_expired now (clear self) = (0%nat, clear self)).
  { unfold cleanup_expired. by rewrite Hexp. }
  split; [|split; [|split; [done|split; [|done]]]].
  - unfold get. simpl. by rewrite lookup_empty.
  - unfold delete. simpl. by rewrite lookup_empty.
  - unfold get_stats. rewrite Hsweep. simpl.
    by rewrite map_size_empty, map_to_list_empty.
Qed.

(** A sweep leaves nothing for a sweep at the same or an earlier clock
    reading: that second sweep removes no entry, returns [0] and leaves
    the cache as it is. *)
Theorem sweep_idempotent (now now' : Z) self :
  now' ≤ now →
  cleanup_expired now' (cleanup_expired now self).2
  = (0%nat, (cleanup_expired now self).2).
Proof.
  intros Hle.
  assert (Hexp : expired_keys now' (cleanup_expired now self).2 = []).
  { apply expired_keys_nil. intros k e.
    rewrite CacheProps.cleanup_expired_lookup.
    destruct (_cache self !! k) as [e'|]; [|done].
    case_decide; [done|]. intros [= <-]. lia. }
  unfold cleanup_expired at 1. rewrite Hexp. simpl foldl. simpl length.
  by rewrite with_cache_id.
Qed.

(** Sweeping is invisible to [get]: a [get] at a clock reading not earlier
    than that of a sweep returns what it would have returned without the
    sweep. *)
Theorem sweep_invisible_to_get (now now' : Z) (key : string) self :
  now ≤ now' →
  (get now' key (cleanup_expired now self).2).1 = (get now' key self).1.
Proof.
  intros Hle. unfold get. rewrite CacheProps.cleanup_expired_lookup.
  destruct (_cache self !! key) as [e|]; [|done].
  destruct (decide (expires_at e < now)) as [Hexp|Hexp].
  - by destruct (Z.gtb_spec now' (expires_at e)); [|lia].
  - by destruct (now' >? expires_at e).
Qed.

(** Reading a key twice at one clock reading gives the same answer twice,
    and the second read changes nothing. *)
Theorem get_twice (now : Z) (key : string) self :
  get now key (get now key self).2 = ((get now key self).1, (get now key self).2).
Proof.
  unfold get at 2 3 4. destruct (_cache self !! key) as [e|] eqn:Hk.
  - destruct (now >? expires_at e) eqn:Hgt; simpl.
    + unfold get. simpl. by rewrite lookup_delete_eq.
    + unfold get. by rewrite Hk, Hgt.
  - simpl. unfold get. by rewrite Hk.
Qed.

End Facts.

Lemma set_then_get_witness :
  get 12 "k" (set 10 "k" 7 None (init 300)) = (Some 7, set 10 "k" 7 None (init 300))
  ∧ (get 12 "k" (set 10 "k" 7 (Some 1) (init 300))).1 = None.
Proof.
  split.
  - apply (set_then_get 10 12 "k" 7 None (init 300)). simpl. lia.
  - rewrite (proj2 (set_then_get 10 12 "k" 7 (Some 1) (init 300)));
      [reflexivity | simpl; lia].
Defined.

Lemma sweep_idempotent_witness :
  cleanup_expired 11 (cleanup_expired 11 (mk {["k" := mkEntry 7 10]} 300)).2
  = (0%nat, (cleanup_expired 11 (mk {["k" := mkEntry 7 10]} 300)).2).
Proof. apply (sweep_idempotent 11 11 (mk {["k" := mkEntry 7 10]} 300)). lia. Defined.

Lemma sweep_invisible_to_get_witness :
  (get 12 "k" (cleanup_expired 11 (mk {["k" := mkEntry 7 20]} 300)).2).1
  = (get 12 "k" (mk {["k" := mkEntry 7 20]} 300)).1.
Proof.
  apply (sweep_invisible_to_get 11 12 "k" (mk {["k" := mkEntry 7 20]} 300)). lia.
Defined.

End CacheMore.

(** ** Sums over groups *)

Lemma sum_Permutation (l1 l2 : list Z) : l1 ≡ₚ l2 → sum l1 = sum l2.
Proof.
  induction 1 as [|x l1 l2 _ IH|x y l|l1 l2 l3 _ IH1 _ IH2];
    rewrite ?sum_cons; lia.
Qed.

Section Partition.
Context {A : Type} (key : A → string) (f : A → Z).
Implicit Types (l : list A) (ks : list string).

Lemma sum_filter_split (k : string) l :
  sum (f <$> l)
  = sum (f <$> filter (λ r, key r = k) l) + sum (f <$> filter (λ r, key r ≠ k) l).
Proof.
  induction l as [|x l IH]; [done|].
  rewrite !filter_cons, fmap_cons, sum_cons, IH.
  destruct (decide (key x = k)) as [Hk|Hk].
  - rewrite decide_False by (intros ?; done).
    rewrite fmap_cons, sum_cons. lia.
  - rewrite decide_True by done. rewrite fmap_cons, sum_cons. lia.
Qed.

Lemma filter_other_key (k k' : string) l :
  k' ≠ k →
  filter (λ r, key r = k') (filter (λ r, key r ≠ k) l) = filter (λ r, key r = k') l.
Proof.
  intros Hne. rewrite list_filter_filter. apply list_filter_iff.
  intros x. split; [by intros [? _] | intros ->; done].
Qed.

(** The groups of a frame split it: summing a column group by group, over
    distinct keys that cover the frame, gives the sum of the column. *)
Lemma sum_by_groups ks l :
  NoDup ks → (∀ r, r ∈ l → key r ∈ ks) →
  sum ((λ k, sum (f <$> filter (λ r, key r = k) l)) <$> ks) = sum (f <$> l).
Proof.
  intros Hnd. revert l. induction Hnd as [|k ks Hk Hnd IH]; intros l Hcover.
  - destruct l as [|r l]; [done|].
    specialize (Hcover r ltac:(left)). by apply elem_of_nil in Hcover.
  - rewrite fmap_cons, sum_cons, (sum_filter_split k l). f_equal.
    rewrite <- (IH (filter (λ r, key r ≠ k) l)).
    + f_equal. apply Forall_fmap_ext_1, Forall_forall. intros k' Hk'.
      rewrite filter_other_key; [done|]. by intros ->.
    + intros r [Hr Hin]%list_elem_of_filter.
      specialize (Hcover r Hin). apply elem_of_cons in Hcover as [?|?]; done.
Qed.

End Partition.

(** ** More on the queries of [database.py] *)

Module QueryMore.
Import Database.


Lemma channel_query (ch : string) (table : list AdData) :
  ch ≠ "" →
  query_all None None (Some ch) table = filter (λ r, channel r = ch) table.
Proof. intros Hne. unfold query_all, step. simpl. by destruct ch. Qed.

Lemma summary_of_rows sd ed ch table :
  let s := summary (get_stats sd ed ch table) in
  let q := query_all sd ed ch (rows table) in
  total_records s = length q
  ∧ total_clicks s = sum (clicks <$> q)
  ∧ total_conversions s = sum (conversions <$> q).
Proof.
  unfold get_stats. simpl. rewrite length_fmap, <- !list_fmap_compose. done.
Qed.




(** The channel summaries split the table: their record counts add up to
    the number of rows, their click totals to the clicks of the table and
    their conversion totals to its conversions.  An empty table has no
    summaries. *)
Theorem channel_summary_partitions (table : Table) :
  sum ((λ g, Z.of_nat (record_count g)) <$> get_channel_summary table)
  = Z.of_nat (length (rows table))
  ∧ sum (cs_total_clicks <$> get_channel_summary table)
    = sum (clicks <$> rows table)
  ∧ sum (cs_total_conversions <$> get_channel_summary table)
    = sum (conversions <$> rows table)
  ∧ (∀ next, get_channel_summary (mkTable [] next) = []).
Proof.
  assert (Hsplit : ∀ (f : AdData → Z) (proj : ChannelSummary → Z),
            (∀ ch, proj (round_row (group (rows table) ch))
                   = sum (f <$> filter (λ r, channel r = ch) (rows table))) →
            sum (proj <$> get_channel_summary table) = sum (f <$> rows table)).
  { intros f proj Hproj. unfold get_channel_summary.
    rewrite <- list_fmap_compose.
    rewrite (sum_Permutation _ ((proj ∘ round_row) <$> group_by_channel (rows table)))
      by (by rewrite merge_sort_Permutation).
    unfold group_by_channel. rewrite <- list_fmap_compose.
    rewrite <- (sum_by_groups channel f (remove_dups (channel <$> rows table))).
    - f_equal. apply Forall_fmap_ext_1, Forall_forall. intros ch _. apply Hproj.
    - apply NoDup_remove_dups.
    - intros r Hr. apply elem_of_remove_dups, list_elem_of_fmap. eauto. }
  split; [|split; [|split]].
  - rewrite (Hsplit (λ _, 1) (λ g, Z.of_nat (record_count g))).
    + generalize (rows table). intros l. induction l as [|x l IH]; [done|].
      rewrite fmap_cons, sum_cons, IH. simpl length. lia.
    + intros ch. simpl. generalize (filter (λ r, channel r = ch) (rows table)).
      intros l. induction l as [|x l IH]; [done|].
      rewrite fmap_cons, sum_cons, <- IH. simpl length. lia.
  - by apply Hsplit.
  - by apply Hsplit.
  - done.
Qed.

(** The two endpoints agree on counts and totals: the summary of a
    channel in [get_channel_summary] carries the [total_records],
    [total_clicks] and [total_conversions] that [get_stats] reports when
    it is asked for that channel alone. *)
Theorem channel_summary_matches_stats (table : Table) (g : ChannelSummary) :
  g ∈ get_channel_summary table → cs_channel g ≠ "" →
  let s := summary (get_stats None None (Some (cs_channel g)) table) in
  record_count g = total_records s
  ∧ cs_total_clicks g = total_clicks s
  ∧ cs_total_conversions g = total_conversions s.
Proof.
  intros Hg Hne. unfold get_channel_summary in Hg.
  apply list_elem_of_fmap in Hg as (g0 & -> & Hg0).
  rewrite merge_sort_Permutation in Hg0. unfold group_by_channel in Hg0.
  apply list_elem_of_fmap in Hg0 as (ch & -> & _). simpl in Hne.
  destruct (summary_of_rows None None (Some ch) table) as (Hn & Hc & Hv).
  cbv zeta. simpl cs_channel. rewrite Hn, Hc, Hv.
  by rewrite channel_query.
Qed.


Lemma channel_summary_matches_stats_witness :
  let table := mkTable [mkAdData 1 "2024-01-01" "search" 100 10 (10 # 1);
                        mkAdData 2 "2024-01-01" "social" 50 5 (10 # 1);
                        mkAdData 3 "2024-01-02" "search" 200 30 (15 # 1)] 4 in
  total_clicks (summary (get_stats None None (Some "search") table)) = 300.
Proof.
  intros table.
  pose proof (channel_summary_matches_stats table
                (mkChannelSummary "search" 2 300 40 (25 # 2))) as H.
  simpl cs_channel in H. simpl cs_total_clicks in H.
  symmetry. apply H; [vm_compute; left | discriminate].
Defined.

End QueryMore.

(** ** More on the frames of [data_processing.py] *)

Module FrameMore.
Import DataProcessing.

(** [aggregate_by_date] returns one row per distinct date of the frame,
    in ascending date order. *)
Theorem aggregate_by_date_ascending (df : list Row) :
  StronglySorted String.le (agg_key <$> aggregate_by_date df)
  ∧ NoDup (agg_key <$> aggregate_by_date df)
  ∧ (∀ d, d ∈ agg_key <$> aggregate_by_date df ↔ d ∈ row_date <$> df).
Proof.
  unfold aggregate_by_date. rewrite GroupProps.groupby_keys.
  split; [|split].
  - apply StronglySorted_merge_sort; apply _.
  - rewrite merge_sort_Permutation. apply NoDup_remove_dups.
  - intros d. by rewrite merge_sort_Permutation, elem_of_remove_dups.
Qed.

Lemma sum_nonneg (l : list Z) : Forall (λ n, 0 ≤ n) l → 0 ≤ sum l.
Proof.
  induction 1 as [|n l Hn _ IH]; [done|]. rewrite sum_cons. lia.
Qed.

Lemma group_sum_bounds (key : Row → string) (f : Row → Z) (df : list Row)
    (k : string) :
  Forall (λ r, 0 ≤ f r) df →
  0 ≤ sum (f <$> filter (λ r, key r = k) df) ≤ sum (f <$> df).
Proof.
  intros Hpos. rewrite (sum_filter_split key f k df).
  assert (Hpart : ∀ (P : Row → Prop) `{!∀ r, Decision (P r)},
            0 ≤ sum (f <$> filter P df)).
  { intros P ?. apply sum_nonneg, Forall_fmap, Forall_forall.
    intros r [_ Hr]%list_elem_of_filter. simpl.
    by apply (proj1 (Forall_forall _ _) Hpos). }
  pose proof (Hpart (λ r, key r = k) _).
  pose proof (Hpart (λ r, key r ≠ k) _). lia.
Qed.

(** Grouping loses nothing.  On a frame whose clicks and conversions are
    not negative and add up to less than 2^63, so that no 64-bit sum
    wraps around, the clicks of the groups add up to the clicks of the
    frame and the conversions of the groups to its conversions, whatever
    the key; and every group total lies between 0 and 2^63. *)
Theorem aggregate_by_partitions (key : Row → string) (df : list Row) :
  Forall (λ r, 0 ≤ row_clicks r ∧ 0 ≤ row_conversions r) df →
  sum (row_clicks <$> df) < 2 ^ 63 →
  sum (row_conversions <$> df) < 2 ^ 63 →
  sum (agg_clicks <$> aggregate_by key df) = sum (row_clicks <$> df)
  ∧ sum (agg_conversions <$> aggregate_by key df) = sum (row_conversions <$> df)
  ∧ Forall (λ a, 0 ≤ agg_clicks a < 2 ^ 63 ∧ 0 ≤ agg_conversions a < 2 ^ 63)
           (aggregate_by key df).
Proof.
  intros Hpos Hclicks Hconv.
  assert (Hsplit : ∀ (f : Row → Z) (proj : Agg → Z),
            (∀ k, proj (recalculate
                    (mkAgg k (sum (row_clicks <$> filter (λ r, key r = k) df))
                       (sum (row_conversions <$> filter (λ r, key r = k) df))
                       (Fin (mean (row_conversion_rate
                                     <$> filter (λ r, key r = k) df)))))
                  = sum (f <$> filter (λ r, key r = k) df)) →
            sum (proj <$> aggregate_by key df) = sum (f <$> df)).
  { intros f proj Hproj. unfold aggregate_by.
    destruct df as [|r0 df0] eqn:Hdf; [done|]. rewrite <- Hdf in *.
    unfold groupby_agg. rewrite <- !list_fmap_compose.
    rewrite (sum_Permutation _
               ((proj ∘ recalculate
                 ∘ (λ k, mkAgg k (sum (row_clicks <$> filter (λ r, key r = k) df))
                           (sum (row_conversions <$> filter (λ r, key r = k) df))
                           (Fin (mean (row_conversion_rate
                                         <$> filter (λ r, key r = k) df)))))
                  <$> remove_dups (key <$> df)))
      by (by rewrite merge_sort_Permutation).
    rewrite <- (sum_by_groups key f (remove_dups (key <$> df))).
    - f_equal. apply Forall_fmap_ext_1, Forall_forall. intros k _. apply Hproj.
    - apply NoDup_remove_dups.
    - intros r Hr. apply elem_of_remove_dups, list_elem_of_fmap. eauto. }
  split; [by apply Hsplit|]. split; [by apply Hsplit|].
  apply Forall_forall. intros a Ha. unfold aggregate_by in Ha.
  destruct df as [|r0 df0] eqn:Hdf; [by apply elem_of_nil in Ha|].
  rewrite <- Hdf in *. clear Hdf.
  apply list_elem_of_fmap in Ha as (a0 & -> & Ha0). unfold groupby_agg in Ha0.
  apply list_elem_of_fmap in Ha0 as (k & -> & _). simpl.
  assert (Hc : Forall (λ r, 0 ≤ row_clicks r) df)
    by (eapply Forall_impl; [exact Hpos | by intros r [? _]]).
  assert (Hv : Forall (λ r, 0 ≤ row_conversions r) df)
    by (eapply Forall_impl; [exact Hpos | by intros r [_ ?]]).
  pose proof (group_sum_bounds key row_clicks df k Hc).
  pose proof (group_sum_bounds key row_conversions df k Hv). lia.
Qed.

Lemma aggregate_by_partitions_witness :
  sum (agg_clicks
         <$> aggregate_by_channel [mkRow "2024-01-01" "search" 100 10 (10 # 1);
                                   mkRow "2024-01-01" "social" 50 5 (10 # 1);
                                   mkRow "2024-01-02" "search" 200 30 (15 # 1)])
  = 350.
Proof.
  unfold aggregate_by_channel.
  rewrite (proj1 (aggregate_by_partitions row_channel
             [mkRow "2024-01-01" "search" 100 10 (10 # 1);
              mkRow "2024-01-01" "social" 50 5 (10 # 1);
              mkRow "2024-01-02" "search" 200 30 (15 # 1)]
             ltac:(repeat constructor; simpl; lia)
             ltac:(vm_compute; reflexivity) ltac:(vm_compute; reflexivity))).
  reflexivity.
Defined.

Lemma fmap_omap_filter {A B C : Type} (f : A → option B) (g : B → C)
    (h : A → C) (P : A → Prop) `{!∀ x, Decision (P x)} (l : list A) :
  (∀ x, P x → ∃ y, f x = Some y ∧ g y = h x) →
  g <$> omap f (filter P l) = h <$> filter P l.
Proof.
  intros Hf. induction l as [|x l IH]; [done|].
  rewrite filter_cons. destruct (decide (P x)) as [HP|HP]; [|done].
  destruct (Hf x HP) as (y & Hy & Hg). csimpl. rewrite Hy. csimpl.
  by rewrite Hg, IH.
Qed.

(** What [process_csv_data] keeps: exactly the rows whose clicks are a
    positive number, whose conversions are a number and, when the frame has
    an [impressions] column, whose impressions are a positive number.  The
    kept rows come out in their input order with date, channel, clicks and
    conversions unchanged. *)
Theorem process_csv_data_keeps (df : RawFrame) :
  (λ rec, (date rec, channel rec, Some (clicks rec), Some (conversions rec)))
    <$> process_csv_data df
  = (λ r, (raw_date r, raw_channel r, raw_clicks r, raw_conversions r))
      <$> filter (λ r, gt0 (raw_clicks r) ∧ is_Some (raw_conversions r)
                       ∧ (has_impressions df = true → gt0 (raw_impressions r)))
                 (raw_rows df).
Proof.
  unfold process_csv_data. destruct df as [imp l]. simpl.
  set (keep := λ r, gt0 (raw_clicks r) ∧ is_Some (raw_conversions r)
                    ∧ (imp = true → gt0 (raw_impressions r))).
  assert (Hrec : ∀ r, keep r → ∃ rec, to_record imp r = Some rec
            ∧ (date rec, channel rec, Some (clicks rec), Some (conversions rec))
              = (raw_date r, raw_channel r, raw_clicks r, raw_conversions r)).
  { intros r (Hk & [v Hv] & _). unfold to_record. rewrite Hv.
    destruct (raw_clicks r) as [k|]; [|done]. eauto. }
  assert (Hfilter :
    filter (λ r, gt0 (raw_clicks r))
      (filter notna (if imp then filter (λ r, gt0 (raw_impressions r)) l else l))
    = filter keep l).
  { destruct imp; rewrite !list_filter_filter; apply list_filter_iff;
      intros r; unfold keep, notna; cbv beta; split.
    - intros ((Hk & _ & Hv) & Hi). by repeat split.
    - intros (Hk & Hv & Hi). repeat split; [done| |done|by apply Hi].
      destruct (raw_clicks r); [by eexists | done].
    - intros (Hk & _ & Hv). by repeat split.
    - intros (Hk & Hv & _). repeat split; [done| |done].
      destruct (raw_clicks r); [by eexists | done]. }
  rewrite Hfilter. by apply fmap_omap_filter.
Qed.

End FrameMore.

(** ** The process over a sequence of requests *)

Module SessionProps.
Import Database Main Session.

Lemma app_cons (a : Ascii.ascii) (s t : string) : String a s +:+ t = String a (s +:+ t).
Proof. reflexivity. Qed.

Lemma app_nil (t : string) : "" +:+ t = t.
Proof. reflexivity. Qed.

Lemma underscore_split (a a' r r' : string) :
  has_underscore a = false → has_underscore a' = false →
  a +:+ "_" +:+ r = a' +:+ "_" +:+ r' → a = a' ∧ r = r'.
Proof.
  revert a'. induction a as [|c a IH]; intros [|c' a'] Ha Ha' Heq.
  - rewrite !app_nil in Heq. by simplify_eq.
  - rewrite app_nil, !app_cons in Heq. injection Heq as <- _.
    simpl in Ha'. done.
  - rewrite app_nil, !app_cons in Heq. injection Heq as -> _.
    simpl in Ha. done.
  - rewrite !app_cons in Heq. injection Heq as -> Heq.
    simpl in Ha, Ha'. destruct (Ascii.eqb c' underscore); [done|].
    destruct (IH a' Ha Ha' Heq) as [-> ->]. done.
Qed.

Lemma fmt_inj (p p' : option string) :
  p ≠ Some "None" → p' ≠ Some "None" → fmt p = fmt p' → p = p'.
Proof. destruct p, p'; simpl; intros ? ? ?; congruence. Qed.

(** On readable parameters the cache key is one-to-one: two requests
    share a key only if they carry the same start date, end date and
    channel. *)
Theorem cache_key_injective (sd ed ch sd' ed' ch' : option string) :
  readable sd ed ch → readable sd' ed' ch' →
  cache_key sd ed ch = cache_key sd' ed' ch' →
  sd = sd' ∧ ed = ed' ∧ ch = ch'.
Proof.
  intros (Hs & He & Ps & Pe & Pc) (Hs' & He' & Ps' & Pe' & Pc') Hkey.
  unfold cache_key in Hkey. apply (inj (String.app "stats_")) in Hkey.
  apply underscore_split in Hkey as [Hsd Hkey]; [|done..].
  apply underscore_split in Hkey as [Hed Hch]; [|done..].
  repeat split; by apply fmt_inj.
Qed.

Lemma cache_key_injective_witness :
  cache_key (Some "2024-01-01") None (Some "paid_search")
  = cache_key (Some "2024-01-01") None (Some "paid_search")
  ∧ Some "paid_search" = Some "paid_search".
Proof.
  split; [reflexivity|].
  apply (cache_key_injective (Some "2024-01-01") None (Some "paid_search")
           (Some "2024-01-01") None (Some "paid_search"));
    [repeat split; discriminate | repeat split; discriminate | reflexivity].
Defined.









End SessionProps.

(** ** The dashboard against the API *)

Module DashboardProps.
Import DataProcessing.

Lemma filter_fmap {A B : Type} (f : A → B) (P : B → Prop)
    `{!∀ y, Decision (P y)} (l : list A) :
  filter P (f <$> l) = f <$> filter (λ x, P (f x)) l.
Proof.
  induction l as [|x l IH]; [done|].
  rewrite fmap_cons, !filter_cons.
  destruct (decide (P (f x))); by rewrite ?fmap_cons, IH.
Qed.

Lemma dashboard_rows (table : Database.Table) (s e c all : string) :
  s ≠ "" → e ≠ "" → c ≠ "" → c ≠ all →
  Dashboard.apply_filters [s; e] c all (DashboardData.load_data table)
  ≡ₚ DashboardData.to_row
       <$> Database.query_all (Some s) (Some e) (Some c) (Database.rows table).
Proof.
  intros Hs He Hc Hall.
  unfold Dashboard.apply_filters, DashboardData.load_data.
  rewrite decide_True by done. rewrite !filter_fmap, merge_sort_Permutation.
  unfold Database.query_all, Database.step. simpl.
  destruct s as [|? ?]; [done|]. destruct e as [|? ?]; [done|].
  destruct c as [|? ?]; [done|].
  unfold Database.filter_channel, Database.filter_end, Database.filter_start.
  rewrite !list_filter_filter. apply reflexive_eq. f_equal.
  apply list_filter_iff. intros r. simpl. tauto.
Qed.

(** The dashboard and the API agree: on a table that is not empty (the
    dashboard shows no metrics otherwise), for a date range and a channel,
    the key metrics that the dashboard computes from the rows it loaded are the
    totals and the record count that [get_stats] reports for the same
    range and channel, and its conversion rate rounds to the one
    reported. *)
Theorem dashboard_matches_api (table : Database.Table) (s e c all : string) :
  Database.rows table ≠ [] →
  s ≠ "" → e ≠ "" → c ≠ "" → c ≠ all →
  let m := DashboardData.key_metrics
             (Dashboard.apply_filters [s; e] c all (DashboardData.load_data table)) in
  let api := Database.summary
               (Database.get_stats (Some s) (Some e) (Some c) table) in
  DashboardData.total_records m = Database.total_records api
  ∧ DashboardData.total_clicks m = Database.total_clicks api
  ∧ DashboardData.total_conversions m = Database.total_conversions api
  ∧ round2 (DashboardData.avg_conversion_rate m)
    = Database.avg_conversion_rate api.
Proof.
  intros _ Hs He Hc Hall m api.
  pose proof (dashboard_rows table s e c all Hs He Hc Hall) as Hrows.
  destruct (QueryMore.summary_of_rows (Some s) (Some e) (Some c) table)
    as (Hn & Hk & Hv). fold api in Hn, Hk, Hv.
  assert (Hn' : DashboardData.total_records m = Database.total_records api).
  { rewrite Hn. unfold m. simpl. by rewrite Hrows, length_fmap. }
  assert (Hk' : DashboardData.total_clicks m = Database.total_clicks api).
  { rewrite Hk. unfold m. simpl.
    rewrite (sum_Permutation _ _ (fmap_Permutation row_clicks _ _ Hrows)).
    by rewrite <- list_fmap_compose. }
  assert (Hv' : DashboardData.total_conversions m
                = Database.total_conversions api).
  { rewrite Hv. unfold m. simpl.
    rewrite (sum_Permutation _ _ (fmap_Permutation row_conversions _ _ Hrows)).
    by rewrite <- list_fmap_compose. }
  split; [done|]. split; [done|]. split; [done|].
  unfold api, Database.get_stats. simpl.
  change (Database.avg_conversion_rate (Database.summarize ?d))
    with (round2 (if sum (Database.r_clicks <$> d) >? 0
                  then rate (sum (Database.r_conversions <$> d))
                            (sum (Database.r_clicks <$> d))
                  else (0 # 1)%Q)).
  f_equal. unfold m in Hk', Hv'. simpl in Hk', Hv'.
  unfold api, Database.get_stats in Hk', Hv'. simpl in Hk', Hv'.
  unfold m. simpl. by rewrite Hk', Hv'.
Qed.

Lemma dashboard_matches_api_witness :
  DashboardData.total_clicks
    (DashboardData.key_metrics
       (Dashboard.apply_filters ["2024-01-01"; "2024-01-31"] "search" "All Channels"
          (DashboardData.load_data
             (Database.mkTable
                [Database.mkAdData 1 "2024-01-01" "search" 100 10 (10 # 1);
                 Database.mkAdData 2 "2024-01-02" "social" 50 5 (10 # 1);
                 Database.mkAdData 3 "2024-02-02" "search" 200 30 (15 # 1)] 4))))
  = 100.
Proof.
  rewrite (proj1 (proj2 (dashboard_matches_api
             (Database.mkTable
                [Database.mkAdData 1 "2024-01-01" "search" 100 10 (10 # 1);
                 Database.mkAdData 2 "2024-01-02" "social" 50 5 (10 # 1);
                 Database.mkAdData 3 "2024-02-02" "search" 200 30 (15 # 1)] 4)
             "2024-01-01" "2024-01-31" "search" "All Channels"
             ltac:(discriminate) ltac:(discriminate) ltac:(discriminate)
             ltac:(discriminate) ltac:(discriminate)))).
  reflexivity.
Defined.

End DashboardProps.

(** ** Credentials *)

Module AuthProps.
Import Auth.



End AuthProps.
